(** * dddpy: the HTTP layer of the book service (main.py)

    A shallow embedding of the four route handlers of [main.py], of the
    request-scoped database session they depend on, and of the repository
    and use-case layers they call.

    Python code that raises is modelled by an explicit result type, and
    code that reads or writes the database by state passing: a computation
    of type [Py St A] takes the store and gives back either a returned
    value or a raised exception, together with the store it leaves. *)

From Stdlib Require Import List String ZArith Bool Lia.
Import ListNotations.
Open Scope Z_scope.

(** ** Domain *)

(** The book entity: one row of the table keyed by ISBN. *)
Module Book.
Record t : Type := mk {
  isbn : string;
  title : string;
  page : Z;
  created_at : Z;
  updated_at : Z
}.
End Book.

(** Instances of Python's [Exception] that can travel through a handler.
    The three domain errors carry the [message] attribute the handlers read
    ([e.message]); [HTTPException] carries the two arguments the handlers
    pass to it, [detail] being [None] when the argument is omitted. *)
Inductive exception : Type :=
| BookAlreadyExistsError (message : string)
| BookNotFoundError (message : string)
| BooksNotFoundError (message : string)
| HTTPException (status_code : Z) (detail : option string)
| TypeError (msg : string)
| OtherError (name : string).

(** ** Computations that may raise *)

Inductive result (A : Type) : Type :=
| Return (a : A)
| Raise (e : exception).
Arguments Return {A} a.
Arguments Raise {A} e.

Definition Py (St A : Type) : Type := St -> result A * St.

Definition ret {St A : Type} (a : A) : Py St A := fun s => (Return a, s).

Definition raise {St A : Type} (e : exception) : Py St A := fun s => (Raise e, s).

Definition bind {St A B : Type} (m : Py St A) (k : A -> Py St B) : Py St B :=
  fun s =>
    match m s with
    | (Return a, s') => k a s'
    | (Raise e, s') => (Raise e, s')
    end.

Definition fmap {St A B : Type} (f : A -> B) (m : Py St A) : Py St B :=
  bind m (fun a => ret (f a)).

(** [try: body / except ... as e: handler e]. The handler sees the store
    as the body left it. *)
Definition try_except {St A : Type} (body : Py St A) (handler : exception -> Py St A)
  : Py St A :=
  fun s =>
    match body s with
    | (Return a, s') => (Return a, s')
    | (Raise e, s') => handler e s'
    end.

Declare Scope py_scope.
Delimit Scope py_scope with py.
Notation "'try' body 'except' handler" := (try_except body handler)
  (at level 100, body at next level, handler at next level) : py_scope.

(** ** Presentation schemas and the use-case interface *)

(** The validated body of [POST /books]. *)
Module BookCreateSchema.
Record t : Type := mk {
  isbn : string;
  title : string;
  page : Z
}.
End BookCreateSchema.

(** The use-case object the handlers receive. [main.py] calls
    [create_book] once with the three keyword arguments and once with none,
    so each parameter is optional at the call: [None] is an argument that
    was not passed. The list-all method is never named in [main.py]. *)
Module BookUseCase.
Record t (St : Type) : Type := mk {
  create_book : option string -> option string -> option Z -> Py St Book.t;
  fetch_books : Py St (list Book.t);
  fetch_book_by_isbn : string -> Py St Book.t;
  delete_book_by_isbn : string -> Py St unit
}.
Arguments mk {St}.
Arguments create_book {St}.
Arguments fetch_books {St}.
Arguments fetch_book_by_isbn {St}.
Arguments delete_book_by_isbn {St}.

(** The same use case with another list-all method. *)
Definition with_fetch_books {St : Type} (uc : t St) (f : Py St (list Book.t)) : t St :=
  mk (create_book uc) f (fetch_book_by_isbn uc) (delete_book_by_isbn uc).
End BookUseCase.

Module status.
Definition HTTP_200_OK : Z := 200.
Definition HTTP_201_CREATED : Z := 201.
Definition HTTP_202_ACCEPTED : Z := 202.
Definition HTTP_404_NOT_FOUND : Z := 404.
Definition HTTP_409_CONFLICT : Z := 409.
Definition HTTP_500_INTERNAL_SERVER_ERROR : Z := 500.
End status.

(** ** Route handlers (main.py) *)

Section Handlers.
Context {St : Type}.
Open Scope py_scope.

Definition create_book (data : BookCreateSchema.t) (book_usecase : BookUseCase.t St)
  : Py St Book.t :=
  try
    (BookUseCase.create_book book_usecase
       (Some (BookCreateSchema.isbn data))
       (Some (BookCreateSchema.title data))
       (Some (BookCreateSchema.page data)))
  except
    (fun e =>
       match e with
       | BookAlreadyExistsError message =>
           raise (HTTPException status.HTTP_409_CONFLICT (Some message))
       | _ => raise (HTTPException status.HTTP_500_INTERNAL_SERVER_ERROR None)
       end).

(** The handler of [GET /books] calls [create_book] without arguments and
    returns what that call returns. *)
Definition get_books (book_usecase : BookUseCase.t St) : Py St Book.t :=
  try
    (BookUseCase.create_book book_usecase None None None)
  except
    (fun e =>
       match e with
       | BooksNotFoundError message =>
           raise (HTTPException status.HTTP_404_NOT_FOUND (Some message))
       | _ => raise (HTTPException status.HTTP_500_INTERNAL_SERVER_ERROR None)
       end).

Definition get_book (book_id : string) (book_usecase : BookUseCase.t St)
  : Py St Book.t :=
  try
    (BookUseCase.fetch_book_by_isbn book_usecase book_id)
  except
    (fun e =>
       match e with
       | BookNotFoundError message =>
           raise (HTTPException status.HTTP_404_NOT_FOUND (Some message))
       | _ => raise (HTTPException status.HTTP_500_INTERNAL_SERVER_ERROR None)
       end).

Definition delete_book (book_id : string) (book_usecase : BookUseCase.t St)
  : Py St unit :=
  try
    (BookUseCase.delete_book_by_isbn book_usecase book_id)
  except
    (fun e =>
       match e with
       | BookNotFoundError message =>
           raise (HTTPException status.HTTP_404_NOT_FOUND (Some message))
       | _ => raise (HTTPException status.HTTP_500_INTERNAL_SERVER_ERROR None)
       end).
End Handlers.

(** ** Requests, responses and the request-scoped session *)

Inductive request : Type :=
| POST_books (data : BookCreateSchema.t)
| GET_books
| GET_book (book_id : string)
| DELETE_book (book_id : string).

(** What a handler hands back to the framework. *)
Inductive pyvalue : Type :=
| PyBook (book : Book.t)
| PyBooks (books : list Book.t)
| PyNone.

Inductive Body : Type :=
| JSONBook (book : Book.t)
| JSONBooks (books : list Book.t)
| ErrorMessage (detail : option string)
| JSONNull
| EmptyBody
| PlainText (text : string).

Record Response : Type := mkResponse {
  status_code : Z;
  body : Body
}.

(** The [status_code] argument of each route decorator. *)
Definition success_status (req : request) : Z :=
  match req with
  | POST_books _ => status.HTTP_201_CREATED
  | GET_books => status.HTTP_200_OK
  | GET_book _ => status.HTTP_200_OK
  | DELETE_book _ => status.HTTP_202_ACCEPTED
  end.

(** The [response_model] argument of each route decorator: a single book
    for [POST /books] and [GET /books/{book_id}], a list of books for
    [GET /books]; a returned value of another shape does not serialise.
    The [DELETE] route has no response model: the framework encodes
    whatever the handler returns as JSON, and the [None] of a handler
    without [return] becomes the JSON value [null], which status 202
    keeps as its body. *)
Definition response_model (req : request) (v : pyvalue) : option Body :=
  match req, v with
  | POST_books _, PyBook b => Some (JSONBook b)
  | GET_books, PyBooks l => Some (JSONBooks l)
  | GET_book _, PyBook b => Some (JSONBook b)
  | DELETE_book _, PyBook b => Some (JSONBook b)
  | DELETE_book _, PyBooks l => Some (JSONBooks l)
  | DELETE_book _, PyNone => Some JSONNull
  | _, _ => None
  end.

(** [http.HTTPStatus(code).phrase] for the statuses [main.py] names. *)
Definition HTTPStatus_phrase (code : Z) : option string :=
  if code =? 200 then Some "OK"%string
  else if code =? 201 then Some "Created"%string
  else if code =? 202 then Some "Accepted"%string
  else if code =? 404 then Some "Not Found"%string
  else if code =? 409 then Some "Conflict"%string
  else if code =? 500 then Some "Internal Server Error"%string
  else None.

(** The [detail] attribute of an [HTTPException]: the argument when one
    was passed; when it was omitted the constructor puts the phrase of the
    status in its place. *)
Definition exception_detail (code : Z) (detail : option string) : option string :=
  match detail with
  | Some d => Some d
  | None => HTTPStatus_phrase code
  end.

Definition internal_server_error : Response :=
  mkResponse status.HTTP_500_INTERNAL_SERVER_ERROR (PlainText "Internal Server Error").

(** The response the framework builds from what the handler did: the
    decorator's status and the serialised value on return; for an
    [HTTPException] its status and the JSON object holding its [detail]
    attribute; a plain-text 500 for anything else. *)
Definition respond (req : request) (r : result pyvalue) : Response :=
  match r with
  | Return v =>
      match response_model req v with
      | Some b => mkResponse (success_status req) b
      | None => internal_server_error
      end
  | Raise (HTTPException code detail) =>
      mkResponse code (ErrorMessage (exception_detail code detail))
  | Raise _ => internal_server_error
  end.

Definition Session : Type := nat.

Inductive event : Type :=
| SessionOpened (session : Session)
| EndpointCalled (session : Session)
| SessionClosed (session : Session).

(** The process as a request sees it: the database, the sessions that are
    open, and the history of session events. *)
Record World (St : Type) : Type := mkWorld {
  database : St;
  next_session : Session;
  open_sessions : list Session;
  trace : list event
}.
Arguments mkWorld {St}.
Arguments database {St}.
Arguments next_session {St}.
Arguments open_sessions {St}.
Arguments trace {St}.

(** Modelled from the spec: [SessionLocal], the session factory of
    [dddpy.infrastructure.sqlite.database], is not under src/. Each call
    gives a session that no earlier call gave, and that session is open. *)
Definition SessionLocal {St : Type} (w : World St) : Session * World St :=
  let session := next_session w in
  (session,
   mkWorld (database w) (S session) (session :: open_sessions w)
     (trace w ++ [SessionOpened session])).

(** Modelled from the spec: [Session.close] of the object-relational
    mapper releases the session. *)
Definition close {St : Type} (session : Session) (w : World St) : World St :=
  mkWorld (database w) (next_session w)
    (filter (fun s => negb (Nat.eqb s session)) (open_sessions w))
    (trace w ++ [SessionClosed session]).

(** [get_session] is a generator: it yields the session, and its [finally]
    clause runs when the framework resumes it at the end of the request,
    whether the code that used the session returned or raised.
    [request_scope] is that code; a raised exception is part of its
    result. *)
Definition get_session {St A : Type}
  (request_scope : Session -> World St -> A * World St) (w : World St) : A * World St :=
  let (session, w1) := SessionLocal w in
  let (a, w2) := request_scope session w1 in
  (a, close session w2).

Section App.
Context {St UnitOfWork : Type}.
Variable BookRepositoryWithSession : Session -> UnitOfWork.
Variable BookUseCaseImpl : UnitOfWork -> BookUseCase.t St.

Definition book_usecase (session : Session) : BookUseCase.t St :=
  let uow := BookRepositoryWithSession session in
  BookUseCaseImpl uow.

(** The handler of the route, with its result as a Python value. *)
Definition endpoint (req : request) (uc : BookUseCase.t St) : Py St pyvalue :=
  match req with
  | POST_books data => fmap PyBook (create_book data uc)
  | GET_books => fmap PyBook (get_books uc)
  | GET_book book_id => fmap PyBook (get_book book_id uc)
  | DELETE_book book_id => fmap (fun _ => PyNone) (delete_book book_id uc)
  end.

(** The handler runs against the database of the world; it has the session
    only through the use case. *)
Definition call_endpoint (req : request) (session : Session) (w : World St)
  : result pyvalue * World St :=
  let (r, db) := endpoint req (book_usecase session) (database w) in
  (r, mkWorld db (next_session w) (open_sessions w)
        (trace w ++ [EndpointCalled session])).

(** One request, from the dependency on [get_session] to the response. *)
Definition app (req : request) (w : World St) : Response * World St :=
  get_session
    (fun session w1 =>
       let (r, w2) := call_endpoint req session w1 in
       (respond req r, w2))
    w.
End App.

(** The call each handler makes inside its [try] block. *)
Definition usecase_call {St : Type} (req : request) (uc : BookUseCase.t St)
  : Py St pyvalue :=
  match req with
  | POST_books data =>
      fmap PyBook
        (BookUseCase.create_book uc
           (Some (BookCreateSchema.isbn data))
           (Some (BookCreateSchema.title data))
           (Some (BookCreateSchema.page data)))
  | GET_books => fmap PyBook (BookUseCase.create_book uc None None None)
  | GET_book book_id => fmap PyBook (BookUseCase.fetch_book_by_isbn uc book_id)
  | DELETE_book book_id =>
      fmap (fun _ => PyNone) (BookUseCase.delete_book_by_isbn uc book_id)
  end.

(** The domain error each handler names in its first [except] clause. *)
Definition handled (req : request) (e : exception) : bool :=
  match req, e with
  | POST_books _, BookAlreadyExistsError _ => true
  | GET_books, BooksNotFoundError _ => true
  | GET_book _, BookNotFoundError _ => true
  | DELETE_book _, BookNotFoundError _ => true
  | _, _ => false
  end.

(** The status each handler gives its handled domain error. *)
Definition handled_status (req : request) : Z :=
  match req with
  | POST_books _ => status.HTTP_409_CONFLICT
  | _ => status.HTTP_404_NOT_FOUND
  end.

(** The [message] attribute, which only the domain errors have. *)
Definition message (e : exception) : option string :=
  match e with
  | BookAlreadyExistsError m => Some m
  | BookNotFoundError m => Some m
  | BooksNotFoundError m => Some m
  | _ => None
  end.

(** ** Persistence and use-case layers *)

(** Modelled from the spec: the persisted state, one table keyed by ISBN
    with columns isbn, title, page, created_at and updated_at; the module
    [dddpy.infrastructure.sqlite] is not under src/. Rows are kept in the
    order of insertion; [clock] is the time a new row is stamped with. *)
Record Database : Type := mkDatabase {
  rows : list Book.t;
  clock : Z
}.

Definition same_isbn (isbn : string) (b : Book.t) : bool :=
  String.eqb (Book.isbn b) isbn.

Definition has_isbn (isbn : string) (l : list Book.t) : bool :=
  existsb (same_isbn isbn) l.

Definition find_row (isbn : string) (l : list Book.t) : option Book.t :=
  find (same_isbn isbn) l.

Definition remove_rows (isbn : string) (l : list Book.t) : list Book.t :=
  filter (fun b => negb (same_isbn isbn b)) l.

(** The repository interface of section 4.1 of the specification. *)
Module BookRepository.
Record t (St : Type) : Type := mk {
  create : string -> string -> Z -> Py St Book.t;
  find_by_isbn : string -> Py St Book.t;
  find_all : Py St (list Book.t);
  delete_by_isbn : string -> Py St unit
}.
Arguments mk {St}.
Arguments create {St}.
Arguments find_by_isbn {St}.
Arguments find_all {St}.
Arguments delete_by_isbn {St}.
End BookRepository.

Section Persistence.
(** The [message] class attributes of the three domain errors, defined in
    [dddpy.domain.book.book_exeption]. *)
Variable already_exists_message : string.
Variable book_not_found_message : string.
Variable books_not_found_message : string.

(** Modelled from the spec: [create(isbn, title, page)] fails with
    AlreadyExists if a row with that ISBN is present; otherwise inserts
    and returns the new Book. The repository is not under src/. *)
Definition repository_create (isbn title : string) (page : Z) : Py Database Book.t :=
  fun db =>
    if has_isbn isbn (rows db)
    then (Raise (BookAlreadyExistsError already_exists_message), db)
    else
      let book := Book.mk isbn title page (clock db) (clock db) in
      (Return book, mkDatabase (rows db ++ [book]) (clock db)).

(** Modelled from the spec: [findByIsbn(isbn)] returns the Book or fails
    with NotFound. *)
Definition repository_find_by_isbn (isbn : string) : Py Database Book.t :=
  fun db =>
    match find_row isbn (rows db) with
    | Some book => (Return book, db)
    | None => (Raise (BookNotFoundError book_not_found_message), db)
    end.

(** Modelled from the spec: [findAll()] returns the sequence of all Books,
    and fails with the NotFound-family error when the collection is
    empty. *)
Definition repository_find_all : Py Database (list Book.t) :=
  fun db =>
    match rows db with
    | [] => (Raise (BooksNotFoundError books_not_found_message), db)
    | _ :: _ => (Return (rows db), db)
    end.

(** Modelled from the spec: [deleteByIsbn(isbn)] fails with NotFound if
    absent; otherwise removes the row. *)
Definition repository_delete_by_isbn (isbn : string) : Py Database unit :=
  fun db =>
    if has_isbn isbn (rows db)
    then (Return tt, mkDatabase (remove_rows isbn (rows db)) (clock db))
    else (Raise (BookNotFoundError book_not_found_message), db).

(** Modelled from the spec: the repository bound to one session; every
    session reads and writes the same table. *)
Definition BookRepositoryWithSession (session : Session) : BookRepository.t Database :=
  BookRepository.mk
    repository_create
    repository_find_by_isbn
    repository_find_all
    repository_delete_by_isbn.

(** Modelled from the spec: the use-case layer, one method per HTTP
    operation, each a direct delegation to the repository with no added
    logic. [create_book] has the three parameters the handler of
    [POST /books] passes by keyword; a call that omits one is a Python
    [TypeError]. The use-case module is not under src/. *)
Definition BookUseCaseImpl (uow : BookRepository.t Database) : BookUseCase.t Database :=
  BookUseCase.mk
    (fun isbn title page =>
       match isbn, title, page with
       | Some i, Some t, Some p => BookRepository.create uow i t p
       | _, _, _ => raise (TypeError "create_book() missing required positional arguments")
       end)
    (BookRepository.find_all uow)
    (BookRepository.find_by_isbn uow)
    (BookRepository.delete_by_isbn uow).

(** The service: [main.py] wired to the repository and use case above. *)
Definition service (req : request) (w : World Database) : Response * World Database :=
  app BookRepositoryWithSession BookUseCaseImpl req w.
End Persistence.

(** A world with the given rows and no session yet. *)
Definition initial_world (l : list Book.t) (now : Z) : World Database :=
  mkWorld (mkDatabase l now) 0%nat [] [].

(** A use case whose storage is unreachable: every method raises. *)
Definition unreachable_usecase : BookUseCase.t unit :=
  BookUseCase.mk
    (fun _ _ _ => raise (OtherError "OperationalError"))
    (raise (OtherError "OperationalError"))
    (fun _ => raise (OtherError "OperationalError"))
    (fun _ => raise (OtherError "OperationalError")).

Definition the_c_programming_language : BookCreateSchema.t :=
  BookCreateSchema.mk "9780134190440" "The C Programming Language" 272.

Definition stored_c_programming_language : Book.t :=
  Book.mk "9780134190440" "The C Programming Language" 272 1 1.

(** Fixtures for the examples: a table with one book, and the service and
    use case with some text for the three messages. *)
Definition world_with_book : World Database :=
  initial_world [stored_c_programming_language] 2.

Definition example_usecase : BookUseCase.t Database :=
  BookUseCaseImpl
    (BookRepositoryWithSession "already exists" "not found" "no books" 0%nat).

Definition example_service : request -> World Database -> Response * World Database :=
  service "already exists" "not found" "no books".

(** Sessions are numbered in the order [SessionLocal] gives them. *)
Definition sessions_fresh {St : Type} (w : World St) : Prop :=
  forall s, In s (open_sessions w) -> (s < next_session w)%nat.


(** * Properties *)

(** ** The handlers, for any use case *)

Ltac unfold_handlers :=
  unfold endpoint, usecase_call, create_book, get_books, get_book, delete_book,
    try_except, fmap, bind, ret, raise in *.

Section HandlerProperties.
Context {St : Type}.
Implicit Types (uc : BookUseCase.t St) (req : request) (db : St).

(** Every handler is its use-case call inside one [try], with the two
    [except] clauses of the route. *)
Lemma endpoint_try_except req uc db :
  endpoint req uc db =
  match usecase_call req uc db with
  | (Return v, db') => (Return v, db')
  | (Raise e, db') =>
      if handled req e
      then (Raise (HTTPException (handled_status req) (message e)), db')
      else (Raise (HTTPException status.HTTP_500_INTERNAL_SERVER_ERROR None), db')
  end.
Proof.
  destruct req; unfold_handlers; cbn;
    match goal with
    | |- context [BookUseCase.create_book ?u ?a ?b ?c ?d] =>
        destruct (BookUseCase.create_book u a b c d) as [[v | e] db']
    | |- context [BookUseCase.fetch_book_by_isbn ?u ?a ?d] =>
        destruct (BookUseCase.fetch_book_by_isbn u a d) as [[v | e] db']
    | |- context [BookUseCase.delete_book_by_isbn ?u ?a ?d] =>
        destruct (BookUseCase.delete_book_by_isbn u a d) as [[v | e] db']
    end; try reflexivity; destruct e; reflexivity.
Qed.

Lemma endpoint_returns req uc db v db' :
  usecase_call req uc db = (Return v, db') ->
  endpoint req uc db = (Return v, db').
Proof. intros H. rewrite endpoint_try_except, H. reflexivity. Qed.

Lemma endpoint_raises req uc db e db' :
  usecase_call req uc db = (Raise e, db') ->
  endpoint req uc db =
  (Raise (if handled req e
          then HTTPException (handled_status req) (message e)
          else HTTPException status.HTTP_500_INTERNAL_SERVER_ERROR None), db').
Proof.
  intros H. rewrite endpoint_try_except, H. destruct (handled req e); reflexivity.
Qed.

(** The handler of [GET /books] never consults the list-all method. *)
Lemma get_books_ignores_fetch_books uc (f : Py St (list Book.t)) db :
  get_books (BookUseCase.with_fetch_books uc f) db = get_books uc db.
Proof. reflexivity. Qed.

(** C7: on each of the four routes, when the use-case call raises an
    exception that is not the domain error the route handles, the handler
    raises [HTTPException] with status 500 and passes no detail of its
    own; the response built from it has status 500, and its detail is the
    phrase of that status, Internal Server Error. *)
Theorem unhandled_exception_is_500 req uc db e db' :
  usecase_call req uc db = (Raise e, db') ->
  handled req e = false ->
  endpoint req uc db =
    (Raise (HTTPException status.HTTP_500_INTERNAL_SERVER_ERROR None), db') /\
  respond req (fst (endpoint req uc db)) =
    mkResponse 500 (ErrorMessage (Some "Internal Server Error"%string)).
Proof.
  intros Hcall Hunhandled.
  rewrite (endpoint_raises _ _ _ _ _ Hcall), Hunhandled.
  split; reflexivity.
Qed.

(** C9: whatever the use-case call does, a handler ends by returning or by
    raising an [HTTPException] whose status is 409, 404 or 500; no other
    exception leaves it. *)
Theorem handler_returns_or_raises_http req uc db :
  (exists v, fst (endpoint req uc db) = Return v) \/
  (exists code detail,
      fst (endpoint req uc db) = Raise (HTTPException code detail) /\
      (code = 409 \/ code = 404 \/ code = 500)).
Proof.
  rewrite endpoint_try_except.
  destruct (usecase_call req uc db) as [[v | e] db'].
  - left. exists v. reflexivity.
  - right. destruct (handled req e).
    + exists (handled_status req), (message e). split; [reflexivity |].
      destruct req; cbn; auto.
    + exists 500, None. split; [reflexivity | auto].
Qed.

(** C10: when the use-case call raises the domain error the route handles,
    the handler raises [HTTPException] with the route's status (409 on
    create, 404 elsewhere) and with the [message] attribute of the raised
    exception as its detail; the response carries that same detail. *)
Theorem detail_is_exception_message req uc db e db' :
  usecase_call req uc db = (Raise e, db') ->
  handled req e = true ->
  exists m,
    message e = Some m /\
    endpoint req uc db = (Raise (HTTPException (handled_status req) (Some m)), db') /\
    respond req (fst (endpoint req uc db)) =
      mkResponse (handled_status req) (ErrorMessage (Some m)).
Proof.
  intros Hcall Hhandled.
  rewrite (endpoint_raises _ _ _ _ _ Hcall), Hhandled.
  destruct req, e; try discriminate Hhandled; cbn; eexists; repeat split.
Qed.
End HandlerProperties.

(** ** The request-scoped session *)

Section SessionProperties.
Context {St UnitOfWork : Type}.
Variable BookRepositoryWithSession : Session -> UnitOfWork.
Variable BookUseCaseImpl : UnitOfWork -> BookUseCase.t St.

Local Abbreviation run := (app BookRepositoryWithSession BookUseCaseImpl).
Local Abbreviation usecase := (book_usecase BookRepositoryWithSession BookUseCaseImpl).

(** The response of a request is built from what the handler did with the
    database the request found. *)
Lemma app_response req (w : World St) :
  fst (run req w) =
  respond req (fst (endpoint req (usecase (next_session w)) (database w))).
Proof.
  unfold app, get_session, SessionLocal, call_endpoint; cbn.
  destruct (endpoint req _ (database w)) as [r db']. reflexivity.
Qed.

(** The database a request leaves is the one its handler left. *)
Lemma app_database req (w : World St) :
  database (snd (run req w)) =
  snd (endpoint req (usecase (next_session w)) (database w)).
Proof.
  unfold app, get_session, SessionLocal, call_endpoint; cbn.
  destruct (endpoint req _ (database w)) as [r db']. reflexivity.
Qed.

Lemma app_trace req (w : World St) :
  trace (snd (run req w)) =
  trace w ++ [SessionOpened (next_session w); EndpointCalled (next_session w);
              SessionClosed (next_session w)].
Proof.
  unfold app, get_session, SessionLocal, call_endpoint; cbn.
  destruct (endpoint req _ (database w)) as [r db']; cbn.
  rewrite <- !app_assoc. reflexivity.
Qed.

Lemma app_open_sessions req (w : World St) :
  open_sessions (snd (run req w)) =
  filter (fun s => negb (Nat.eqb s (next_session w))) (open_sessions w).
Proof.
  unfold app, get_session, SessionLocal, call_endpoint; cbn.
  destruct (endpoint req _ (database w)) as [r db']; cbn.
  rewrite Nat.eqb_refl. reflexivity.
Qed.

Lemma app_leaves_open_sessions req (w : World St) :
  sessions_fresh w ->
  open_sessions (snd (run req w)) = open_sessions w /\
  sessions_fresh (snd (run req w)).
Proof.
  intros Hfresh.
  assert (Hsame : open_sessions (snd (run req w)) = open_sessions w).
  { rewrite app_open_sessions. apply forallb_filter_id, forallb_forall.
    intros s Hs. apply negb_true_iff, Nat.eqb_neq.
    specialize (Hfresh s Hs). lia. }
  split; [exact Hsame |].
  intros s Hs. rewrite Hsame in Hs. specialize (Hfresh s Hs).
  unfold app, get_session, SessionLocal, call_endpoint; cbn.
  destruct (endpoint req _ (database w)) as [r db']; cbn. lia.
Qed.

(** C8: every request, on any route and whatever its handler returns or
    raises, opens a session before the handler is called and closes that
    same session after it; when the request is over its session is not
    among the open ones, and no session is open that was not open
    before. *)
Theorem session_closed_after_every_request req (w : World St) :
  let session := next_session w in
  let w' := snd (run req w) in
  trace w' =
    trace w ++ [SessionOpened session; EndpointCalled session; SessionClosed session] /\
  ~ In session (open_sessions w') /\
  (forall s, In s (open_sessions w') -> In s (open_sessions w)).
Proof.
  cbv zeta. rewrite app_trace, app_open_sessions.
  split; [reflexivity | split].
  - intros Hin. apply filter_In in Hin. destruct Hin as [_ Hne].
    rewrite Nat.eqb_refl in Hne. discriminate Hne.
  - intros s Hin. apply filter_In in Hin. tauto.
Qed.
End SessionProperties.

(** ** The table *)

Lemma has_isbn_true_iff isbn l :
  has_isbn isbn l = true <-> exists b, In b l /\ Book.isbn b = isbn.
Proof.
  unfold has_isbn. rewrite existsb_exists.
  split; intros [b [Hin Hb]]; exists b; split; auto;
    unfold same_isbn in *; now apply String.eqb_eq.
Qed.

Lemma find_row_Some isbn l b :
  find_row isbn l = Some b -> In b l /\ Book.isbn b = isbn.
Proof.
  intros H. apply find_some in H. destruct H as [Hin Hb].
  split; [exact Hin | now apply String.eqb_eq].
Qed.

Lemma find_row_None_iff isbn l :
  find_row isbn l = None <-> has_isbn isbn l = false.
Proof.
  unfold find_row, has_isbn.
  induction l as [| b l IH]; cbn; [tauto |].
  destruct (same_isbn isbn b); cbn; [split; discriminate | exact IH].
Qed.

Lemma has_isbn_remove_rows isbn l :
  has_isbn isbn (remove_rows isbn l) = false.
Proof.
  unfold has_isbn, remove_rows.
  induction l as [| b l IH]; cbn; [reflexivity |].
  destruct (same_isbn isbn b) eqn:E; cbn; [exact IH |].
  rewrite E. exact IH.
Qed.

Lemma remove_rows_keeps_others isbn other l :
  other <> isbn ->
  find_row other (remove_rows isbn l) = find_row other l.
Proof.
  intros Hne. unfold find_row, remove_rows.
  induction l as [| b l IH]; cbn; [reflexivity |].
  destruct (same_isbn isbn b) eqn:E; cbn.
  - rewrite IH. unfold same_isbn in *. apply String.eqb_eq in E.
    destruct (String.eqb_spec (Book.isbn b) other); [congruence | reflexivity].
  - rewrite IH. reflexivity.
Qed.

(** At most one row per ISBN. *)
Lemma create_keeps_isbn_unique isbn title page now l :
  NoDup (map Book.isbn l) ->
  has_isbn isbn l = false ->
  NoDup (map Book.isbn (l ++ [Book.mk isbn title page now now])).
Proof.
  intros Hnodup Hfresh. rewrite map_app. cbn.
  apply NoDup_app; [exact Hnodup | constructor; [intros [] | constructor] |].
  intros i Hin [Heq | []]. subst i.
  apply in_map_iff in Hin. destruct Hin as [b [Hb Hin]].
  assert (has_isbn isbn l = true) by (apply has_isbn_true_iff; eauto).
  congruence.
Qed.

(** ** The service *)

Section ServiceProperties.
Variable already_exists_message : string.
Variable book_not_found_message : string.
Variable books_not_found_message : string.

Local Abbreviation serve :=
  (service already_exists_message book_not_found_message books_not_found_message).

Ltac run_service := unfold service; rewrite ?app_response, ?app_database; cbn.

(** Under the use case of the repository, [create_book()] raises
    [TypeError], so [GET /books] answers 500 whatever the table holds. *)
Lemma service_get_books (w : World Database) :
  fst (serve GET_books w) =
    mkResponse 500 (ErrorMessage (Some "Internal Server Error"%string)) /\
  database (snd (serve GET_books w)) = database w.
Proof. run_service. split; reflexivity. Qed.

(** What the service does on the other three routes, read off the table. *)
Lemma service_post_books (data : BookCreateSchema.t) (w : World Database) :
  let isbn := BookCreateSchema.isbn data in
  let book := Book.mk isbn (BookCreateSchema.title data) (BookCreateSchema.page data)
                (clock (database w)) (clock (database w)) in
  fst (serve (POST_books data) w) =
    (if has_isbn isbn (rows (database w))
     then mkResponse 409 (ErrorMessage (Some already_exists_message))
     else mkResponse 201 (JSONBook book)) /\
  database (snd (serve (POST_books data) w)) =
    (if has_isbn isbn (rows (database w))
     then database w
     else mkDatabase (rows (database w) ++ [book]) (clock (database w))).
Proof.
  cbv zeta. run_service. unfold_handlers; cbn. unfold repository_create.
  destruct (has_isbn _ _); split; reflexivity.
Qed.

Lemma service_get_book (book_id : string) (w : World Database) :
  fst (serve (GET_book book_id) w) =
    match find_row book_id (rows (database w)) with
    | Some book => mkResponse 200 (JSONBook book)
    | None => mkResponse 404 (ErrorMessage (Some book_not_found_message))
    end /\
  database (snd (serve (GET_book book_id) w)) = database w.
Proof.
  run_service. unfold_handlers; cbn. unfold repository_find_by_isbn.
  destruct (find_row _ _); split; reflexivity.
Qed.

Lemma service_delete_book (book_id : string) (w : World Database) :
  fst (serve (DELETE_book book_id) w) =
    (if has_isbn book_id (rows (database w))
     then mkResponse 202 JSONNull
     else mkResponse 404 (ErrorMessage (Some book_not_found_message))) /\
  database (snd (serve (DELETE_book book_id) w)) =
    (if has_isbn book_id (rows (database w))
     then mkDatabase (remove_rows book_id (rows (database w))) (clock (database w))
     else database w).
Proof.
  run_service. unfold_handlers; cbn. unfold repository_delete_by_isbn.
  destruct (has_isbn _ _); split; reflexivity.
Qed.

(** C1: the handler of [GET /books] gives the same result whatever the
    list-all method of the use case is, so it does not invoke it; and with
    one book stored the service answers 500 with the phrase of that status
    as its only detail, not 200 with the stored books. *)
Theorem get_books_does_not_list :
  (forall (St : Type) (uc : BookUseCase.t St) (f : Py St (list Book.t)) (db : St),
      get_books (BookUseCase.with_fetch_books uc f) db = get_books uc db) /\
  fst (serve GET_books (initial_world [stored_c_programming_language] 2)) =
    mkResponse 500 (ErrorMessage (Some "Internal Server Error"%string)) /\
  fst (serve GET_books (initial_world [stored_c_programming_language] 2)) <>
    mkResponse 200 (JSONBooks [stored_c_programming_language]).
Proof.
  split; [intros; reflexivity |].
  rewrite (proj1 (service_get_books _)). split; [reflexivity | discriminate].
Qed.

(** C2: with no book stored, [GET /books] answers 500 with the phrase of
    that status as its only detail; the status is not 404. *)
Theorem get_books_empty_is_500 :
  fst (serve GET_books (initial_world [] 2)) =
    mkResponse 500 (ErrorMessage (Some "Internal Server Error"%string)) /\
  status_code (fst (serve GET_books (initial_world [] 2))) <> 404.
Proof.
  rewrite (proj1 (service_get_books _)). split; [reflexivity | discriminate].
Qed.

(** C3: a [POST /books] whose ISBN is not in the table answers 201 with a
    book whose isbn, title and page are the submitted ones, and that book
    is the row added to the table. *)
Theorem create_fresh_isbn_is_201 (data : BookCreateSchema.t) (w : World Database) :
  has_isbn (BookCreateSchema.isbn data) (rows (database w)) = false ->
  exists book,
    fst (serve (POST_books data) w) = mkResponse 201 (JSONBook book) /\
    Book.isbn book = BookCreateSchema.isbn data /\
    Book.title book = BookCreateSchema.title data /\
    Book.page book = BookCreateSchema.page data /\
    rows (database (snd (serve (POST_books data) w))) = rows (database w) ++ [book].
Proof.
  intros Hfresh.
  destruct (service_post_books data w) as [Hresponse Hdb].
  rewrite Hfresh in Hresponse, Hdb. rewrite Hresponse, Hdb.
  eexists. repeat split.
Qed.

(** C4: a [POST /books] whose ISBN is already in the table answers 409
    with the message of [BookAlreadyExistsError] as detail, and leaves the
    database, hence the row of that ISBN, as it was. *)
Theorem create_existing_isbn_is_409 (data : BookCreateSchema.t) (w : World Database) :
  has_isbn (BookCreateSchema.isbn data) (rows (database w)) = true ->
  fst (serve (POST_books data) w) =
    mkResponse 409 (ErrorMessage (Some already_exists_message)) /\
  database (snd (serve (POST_books data) w)) = database w /\
  find_row (BookCreateSchema.isbn data) (rows (database (snd (serve (POST_books data) w)))) =
    find_row (BookCreateSchema.isbn data) (rows (database w)).
Proof.
  intros Hpresent.
  destruct (service_post_books data w) as [Hresponse Hdb].
  rewrite Hpresent in Hresponse, Hdb. rewrite Hresponse, Hdb.
  repeat split.
Qed.

(** C5: [GET /books/{book_id}] answers 200 with a book exactly when that
    book is the row stored for the ISBN, and 404 with the message of
    [BookNotFoundError] exactly when no row has the ISBN; it leaves the
    database as it was. *)
Theorem get_book_200_iff_present (book_id : string) (w : World Database) :
  (forall book,
      find_row book_id (rows (database w)) = Some book <->
      fst (serve (GET_book book_id) w) = mkResponse 200 (JSONBook book)) /\
  (has_isbn book_id (rows (database w)) = false <->
   fst (serve (GET_book book_id) w) =
     mkResponse 404 (ErrorMessage (Some book_not_found_message))) /\
  database (snd (serve (GET_book book_id) w)) = database w.
Proof.
  destruct (service_get_book book_id w) as [Hresponse Hdb].
  rewrite Hresponse, <- find_row_None_iff.
  destruct (find_row book_id (rows (database w))) as [b |].
  - split; [| split; [| exact Hdb]].
    + intros book. split; intros H; congruence.
    + split; intros H; discriminate H.
  - split; [| split; [| exact Hdb]].
    + intros book. split; intros H; discriminate H.
    + split; reflexivity.
Qed.

(** C6: [DELETE /books/{book_id}] on a stored ISBN answers 202 with the
    JSON value [null] as body, leaves no row with that ISBN and keeps the
    rows of every other ISBN, and a [GET /books/{book_id}] that follows
    answers 404; on an ISBN that is not stored it answers 404 and leaves
    the database as it was. *)
Theorem delete_book_202_then_404 (book_id : string) (w : World Database) :
  let w' := snd (serve (DELETE_book book_id) w) in
  if has_isbn book_id (rows (database w))
  then
    fst (serve (DELETE_book book_id) w) = mkResponse 202 JSONNull /\
    has_isbn book_id (rows (database w')) = false /\
    (forall other, other <> book_id ->
       find_row other (rows (database w')) = find_row other (rows (database w))) /\
    fst (serve (GET_book book_id) w') =
      mkResponse 404 (ErrorMessage (Some book_not_found_message))
  else
    fst (serve (DELETE_book book_id) w) =
      mkResponse 404 (ErrorMessage (Some book_not_found_message)) /\
    database w' = database w.
Proof.
  cbv zeta.
  destruct (service_delete_book book_id w) as [Hresponse Hdb].
  destruct (has_isbn book_id (rows (database w))).
  - split; [exact Hresponse | rewrite (proj1 (service_get_book _ _)), Hdb; cbn [rows]].
    split; [apply has_isbn_remove_rows | split].
    + intros other Hne. now apply remove_rows_keeps_others.
    + rewrite (proj2 (find_row_None_iff _ _) (has_isbn_remove_rows _ _)).
      reflexivity.
  - split; assumption.
Qed.
End ServiceProperties.

(** ** The theorems at work on the example of the specification *)

Lemma unhandled_exception_is_500_witness :
  endpoint (GET_book "9780134190440") unreachable_usecase tt =
    (Raise (HTTPException status.HTTP_500_INTERNAL_SERVER_ERROR None), tt) /\
  respond (GET_book "9780134190440")
    (fst (endpoint (GET_book "9780134190440") unreachable_usecase tt)) =
    mkResponse 500 (ErrorMessage (Some "Internal Server Error"%string)).
Proof.
  apply (unhandled_exception_is_500 (GET_book "9780134190440") unreachable_usecase tt
           (OtherError "OperationalError") tt); reflexivity.
Defined.

Lemma detail_is_exception_message_witness :
  exists m,
    message (BookAlreadyExistsError "already exists") = Some m /\
    endpoint (POST_books the_c_programming_language) example_usecase
      (database world_with_book) =
      (Raise (HTTPException 409 (Some m)), database world_with_book) /\
    respond (POST_books the_c_programming_language)
      (fst (endpoint (POST_books the_c_programming_language) example_usecase
              (database world_with_book))) =
      mkResponse 409 (ErrorMessage (Some m)).
Proof.
  apply (detail_is_exception_message (POST_books the_c_programming_language)
           example_usecase (database world_with_book)
           (BookAlreadyExistsError "already exists") (database world_with_book));
    reflexivity.
Defined.

Lemma create_fresh_isbn_is_201_witness :
  exists book,
    fst (example_service (POST_books the_c_programming_language) (initial_world [] 1)) =
      mkResponse 201 (JSONBook book) /\
    Book.isbn book = "9780134190440"%string /\
    Book.title book = "The C Programming Language"%string /\
    Book.page book = 272 /\
    rows (database (snd (example_service (POST_books the_c_programming_language)
                           (initial_world [] 1)))) = [] ++ [book].
Proof.
  apply (create_fresh_isbn_is_201 "already exists" "not found" "no books"
           the_c_programming_language (initial_world [] 1)).
  reflexivity.
Defined.

Lemma create_existing_isbn_is_409_witness :
  fst (example_service (POST_books the_c_programming_language) world_with_book) =
    mkResponse 409 (ErrorMessage (Some "already exists"%string)) /\
  database (snd (example_service (POST_books the_c_programming_language) world_with_book)) =
    database world_with_book /\
  find_row "9780134190440"
    (rows (database (snd (example_service (POST_books the_c_programming_language)
                            world_with_book)))) =
    find_row "9780134190440" (rows (database world_with_book)).
Proof.
  apply (create_existing_isbn_is_409 "already exists" "not found" "no books"
           the_c_programming_language world_with_book).
  reflexivity.
Defined.

(** The example of the specification: create, fetch, delete, fetch. *)
Example create_fetch_delete_fetch :
  let w0 := initial_world [] 1 in
  let (r1, w1) := example_service (POST_books the_c_programming_language) w0 in
  let (r2, w2) := example_service (GET_book "9780134190440") w1 in
  let (r3, w3) := example_service (DELETE_book "9780134190440") w2 in
  let (r4, w4) := example_service (GET_book "9780134190440") w3 in
  r1 = mkResponse 201 (JSONBook stored_c_programming_language) /\
  r2 = mkResponse 200 (JSONBook stored_c_programming_language) /\
  r3 = mkResponse 202 JSONNull /\
  r4 = mkResponse 404 (ErrorMessage (Some "not found"%string)) /\
  open_sessions w4 = [] /\
  rows (database w4) = [].
Proof. vm_compute. repeat split. Qed.

(** * Further properties of main.py *)

(** ** Handlers and the calls they wrap *)

Section HandlerTransparency.
Context {St : Type}.
Implicit Types (uc : BookUseCase.t St) (req : request) (db : St).

(** X4: a handler returns a value exactly when its use-case call returns
    that value, and whether the call returns or raises, the handler leaves
    the store as the call left it: it neither writes nor undoes
    anything. *)
Theorem handler_returns_iff_usecase_returns req uc db :
  (forall v, fst (endpoint req uc db) = Return v <->
             fst (usecase_call req uc db) = Return v) /\
  snd (endpoint req uc db) = snd (usecase_call req uc db).
Proof.
  rewrite endpoint_try_except.
  destruct (usecase_call req uc db) as [[v0 | e] db']; cbn.
  - split; [intros v; tauto | reflexivity].
  - destruct (handled req e); cbn;
      (split; [intros v; split; intros H; discriminate H | reflexivity]).
Qed.
End HandlerTransparency.

(** ** The session generator, for any code that uses the session *)

Section SessionScope.
Context {St A : Type}.
Variable request_scope : Session -> World St -> A * World St.

(** X1: whatever the code between [yield] and [finally] does with the
    world, even if it opens or closes sessions itself, [get_session] hands
    it an open session, gives back its result unchanged, and closes that
    session as its last step: the session is not open afterwards, every
    other session is open afterwards exactly if it was open when the code
    finished, and the closing is the last event of the trace. *)
Theorem get_session_closes_its_session (w : World St) :
  let session := next_session w in
  let w1 := snd (SessionLocal w) in
  let w2 := snd (request_scope session w1) in
  let w' := snd (get_session request_scope w) in
  In session (open_sessions w1) /\
  fst (get_session request_scope w) = fst (request_scope session w1) /\
  database w' = database w2 /\
  trace w' = trace w2 ++ [SessionClosed session] /\
  ~ In session (open_sessions w') /\
  (forall s, s <> session -> In s (open_sessions w') <-> In s (open_sessions w2)).
Proof.
  cbv zeta. unfold get_session, SessionLocal; cbn.
  destruct (request_scope (next_session w) _) as [a w2]; cbn.
  split; [now left |]. repeat split.
  - intros Hin. apply filter_In in Hin. destruct Hin as [_ Hne].
    rewrite Nat.eqb_refl in Hne. discriminate Hne.
  - intros Hin. apply filter_In in Hin. tauto.
  - intros Hin. apply filter_In. split; [exact Hin |].
    apply negb_true_iff, Nat.eqb_neq. assumption.
Qed.
End SessionScope.

(** ** Whole requests *)

Section RunProperties.
Context {St UnitOfWork : Type}.
Variable BookRepositoryWithSession : Session -> UnitOfWork.
Variable BookUseCaseImpl : UnitOfWork -> BookUseCase.t St.

Local Abbreviation run := (app BookRepositoryWithSession BookUseCaseImpl).
Local Abbreviation usecase := (book_usecase BookRepositoryWithSession BookUseCaseImpl).


(** X3: every response is of one of four kinds, decided by what the
    use-case call did. If the call returned a value the route serialises,
    the status is the route's success status and the body is that value
    ([null] on [DELETE]); if it raised the route's domain error, the status
    is 409 on create and 404 elsewhere and the detail is the exception's
    message; if it raised anything else, the status is 500 and the detail
    is the phrase of that status, Internal Server Error, with nothing of
    the exception in it; if it returned a value the response model
    rejects, the response is the plain-text 500. *)
Theorem response_follows_usecase_outcome req (w : World St) :
  let outcome := fst (usecase_call req (usecase (next_session w)) (database w)) in
  let response := fst (run req w) in
  (exists v b,
      outcome = Return v /\ response_model req v = Some b /\
      response = mkResponse (success_status req) b) \/
  (exists e m,
      outcome = Raise e /\ handled req e = true /\ message e = Some m /\
      response = mkResponse (handled_status req) (ErrorMessage (Some m))) \/
  (exists e,
      outcome = Raise e /\ handled req e = false /\
      response =
        mkResponse 500 (ErrorMessage (Some "Internal Server Error"%string))) \/
  (exists v,
      outcome = Return v /\ response_model req v = None /\
      response = internal_server_error).
Proof.
  cbv zeta. rewrite app_response, endpoint_try_except.
  destruct (usecase_call req _ (database w)) as [[v | e] db']; cbn.
  - destruct (response_model req v) as [b |] eqn:Hmodel.
    + left. exists v, b. auto.
    + right; right; right. exists v. auto.
  - destruct (handled req e) eqn:Hhandled; cbn.
    + right; left.
      destruct req, e; try discriminate Hhandled; cbn;
        eexists; eexists; repeat split; reflexivity.
    + right; right; left. exists e. auto.
Qed.

(** X6: the statuses a route can answer. [POST /books] answers 201, 409
    or 500 and never 404; [DELETE /books/{book_id}] answers 202, 404 or
    500; the two [GET] routes answer 200, 404 or 500; none of these three
    ever answers 409. This holds whatever the use case returns or
    raises. *)
Theorem route_status_codes req (w : World St) :
  let code := status_code (fst (run req w)) in
  match req with
  | POST_books _ => code = 201 \/ code = 409 \/ code = 500
  | DELETE_book _ => code = 202 \/ code = 404 \/ code = 500
  | GET_books | GET_book _ => code = 200 \/ code = 404 \/ code = 500
  end.
Proof.
  cbv zeta. rewrite app_response, endpoint_try_except.
  destruct (usecase_call req _ (database w)) as [[v | e] db'].
  - cbn [fst respond].
    destruct (response_model req v); destruct req; cbn; auto.
  - destruct (handled req e); destruct req; cbn; auto.
Qed.

End RunProperties.


(** ** Where the responses differ from a body without detail and from an
    empty body *)

(** C7, as first stated, fails: when the storage is unreachable the
    response of [GET /books/9780134190440] is 500 and its body does carry
    a detail, the phrase Internal Server Error. *)
Lemma unhandled_exception_body_has_detail :
  usecase_call (GET_book "9780134190440") unreachable_usecase tt =
    (Raise (OtherError "OperationalError"), tt) /\
  handled (GET_book "9780134190440") (OtherError "OperationalError") = false /\
  respond (GET_book "9780134190440")
    (fst (endpoint (GET_book "9780134190440") unreachable_usecase tt)) =
    mkResponse 500 (ErrorMessage (Some "Internal Server Error"%string)) /\
  body (respond (GET_book "9780134190440")
          (fst (endpoint (GET_book "9780134190440") unreachable_usecase tt))) <>
    ErrorMessage None.
Proof. repeat split. discriminate. Qed.

(** C6, as first stated, fails: deleting the stored book answers 202 and
    the body is the JSON value [null], not an empty body. *)
Lemma delete_body_is_not_empty :
  has_isbn "9780134190440" (rows (database world_with_book)) = true /\
  fst (example_service (DELETE_book "9780134190440") world_with_book) =
    mkResponse 202 JSONNull /\
  body (fst (example_service (DELETE_book "9780134190440") world_with_book)) <>
    EmptyBody.
Proof. repeat split. discriminate. Qed.
